(** * Verification of [src/routes.py]: the [/health] route of the [api] blueprint

    The module under study is

<<
    from flask import Blueprint

    api_routes = Blueprint("api", __name__)

    @api_routes.route("/health")
    def health_check():
        return {"status": "Backend Case Study API Running"}
>>

    It is embedded as a program in a state-and-exception monad over a small
    Python object store: the module's statements are [routes_py], its
    handler is [health_check].  What the module imports from Flask, and what
    Flask does with the blueprint afterwards (rule registration, URL
    matching, request dispatch, response construction), is not defined by
    the module; it is modelled in the modules [Flask], [Werkzeug], [Json]
    and [FlaskApp] after Flask 3 and Werkzeug 3 in their default
    configuration, as far as a blueprint of rules without variable parts
    exercises them. *)

From Stdlib Require Import ZArith String Ascii List Bool Lia.
From stdpp Require Import base option list strings gmap.

Local Open Scope string_scope.

(** * The Python object store *)

Module Py.

Definition loc := positive.

(** Code objects defined by the module under study. *)
Inductive code := health_check_code.

(** Values: [None], [str], and references to heap objects. *)
Inductive value :=
| VNone
| VStr (s : string)
| VRef (l : loc).

(** Keyword options of [route] ([**options]); an absent keyword is [None]. *)
Record options := Options {
  o_endpoint : option string;
  o_methods : option (list string);
  o_provide_automatic_options : option bool
}.

(** A call that passes no keyword, as [route("/health")] does. *)
Definition no_options : options := Options None None None.

(** A deferred registration recorded on a blueprint: the closure
    [lambda s: s.add_url_rule(rule, endpoint, view_func, **options)]. *)
Record deferred := Deferred {
  d_rule : string;
  d_endpoint : option string;
  d_view_func : loc;
  d_provide_automatic_options : option bool;
  d_methods : option (list string)
}.

Record blueprint := Blueprint_obj {
  bp_name : string;
  bp_import_name : string;
  bp_url_prefix : option string;
  bp_deferred_functions : list deferred;
  bp_got_registered_once : bool
}.

(** Heap objects: [dict] with [str] keys (insertion ordered), function
    objects (with their [__name__]) and blueprints. *)
Inductive obj :=
| ODict (items : list (string * value))
| OFunction (name : string) (c : code)
| OBlueprint (b : blueprint).

(** The per-request data that Flask exposes through [flask.request]. *)
Record request := Request {
  method : string;
  path : string;
  query_string : string;
  headers : list (string * string);
  body : string
}.

Record World := MkWorld {
  heap : gmap loc obj;
  globals : gmap string value;
  current_request : option request
}.

Inductive exn :=
| ValueError (msg : string)
| TypeError (msg : string)
| AssertionError (msg : string)
| KeyError (key : string)
| NameError (name : string)
| NotFound
| MethodNotAllowed (valid_methods : gset string)
| RequestRedirect (new_path : string).

(** Outcome of running a piece of code: normal return or a raised
    exception; either way the store is the one reached so far. *)
Inductive result (A : Type) :=
| Ok (a : A) (w : World)
| Raise (e : exn) (w : World).
Arguments Ok {A} a w.
Arguments Raise {A} e w.

Definition M (A : Type) : Type := World → result A.

Definition ret {A} (a : A) : M A := λ w, Ok a w.

Definition bind {A B} (m : M A) (k : A → M B) : M B :=
  λ w, match m w with
       | Ok a w' => k a w'
       | Raise e w' => Raise e w'
       end.

Definition raise {A} (e : exn) : M A := λ w, Raise e w.

(** [try: m  except Exception as e: h e] *)
Definition try_except {A} (m : M A) (h : exn → M A) : M A :=
  λ w, match m w with
       | Ok a w' => Ok a w'
       | Raise e w' => h e w'
       end.

Definition get_heap : M (gmap loc obj) := λ w, Ok (heap w) w.

Definition set_heap (h : gmap loc obj) : M unit :=
  λ w, Ok tt (MkWorld h (globals w) (current_request w)).

Definition set_global (x : string) (v : value) : M unit :=
  λ w, Ok tt (MkWorld (heap w) (<[x := v]> (globals w)) (current_request w)).

Definition get_global (x : string) : M value :=
  λ w, match globals w !! x with
       | Some v => Ok v w
       | None => Raise (NameError x) w
       end.

Definition get_request : M (option request) := λ w, Ok (current_request w) w.

Definition set_request (r : option request) : M unit :=
  λ w, Ok tt (MkWorld (heap w) (globals w) r).

End Py.

Export Py.

#[global] Instance M_ret : MRet M := @ret.
#[global] Instance M_bind : MBind M := λ A B k m, bind m k.

(** Allocation of a new object at an unused address. *)
Definition alloc (o : obj) : M loc :=
  h ← get_heap;
  let l := fresh (dom h) in
  set_heap (<[l := o]> h);;
  mret l.

Definition load (l : loc) : M obj :=
  h ← get_heap;
  match h !! l with
  | Some o => mret o
  | None => raise (KeyError "dangling reference")
  end.

(** In-place update of an existing object. *)
Definition store (l : loc) (o : obj) : M unit :=
  h ← get_heap;
  set_heap (<[l := o]> h).

(** * String helpers used by the framework *)

(** [c in s] *)
Fixpoint has_char (c : ascii) (s : string) : bool :=
  match s with
  | EmptyString => false
  | String a s' => if Ascii.eqb a c then true else has_char c s'
  end.

(** [s.startswith(c)] for a one-character prefix. *)
Definition starts_with_char (c : ascii) (s : string) : bool :=
  match s with
  | String a _ => Ascii.eqb a c
  | EmptyString => false
  end.

(** [s.endswith(c)] for a one-character suffix. *)
Fixpoint ends_with_char (c : ascii) (s : string) : bool :=
  match s with
  | EmptyString => false
  | String a EmptyString => Ascii.eqb a c
  | String _ s' => ends_with_char c s'
  end.

(** [s.lstrip(c)] *)
Fixpoint lstrip (c : ascii) (s : string) : string :=
  match s with
  | String a s' => if Ascii.eqb a c then lstrip c s' else s
  | EmptyString => EmptyString
  end.

(** [s.rstrip(c)] *)
Fixpoint rstrip (c : ascii) (s : string) : string :=
  match s with
  | EmptyString => EmptyString
  | String a s' =>
      match rstrip c s' with
      | EmptyString => if Ascii.eqb a c then EmptyString else String a EmptyString
      | t => String a t
      end
  end.

Definition upper_char (a : ascii) : ascii :=
  let n := nat_of_ascii a in
  if (97 <=? n)%nat && (n <=? 122)%nat then ascii_of_nat (n - 32) else a.

(** [s.upper()] on ASCII text. *)
Fixpoint upper (s : string) : string :=
  match s with
  | EmptyString => EmptyString
  | String a s' => String (upper_char a) (upper s')
  end.

(** * The framework: blueprints and rule registration *)

Module Flask.

(** [Blueprint(name, import_name)]: the constructor validates the name and
    starts with an empty list of deferred functions. *)
Definition Blueprint (name import_name : string) : M loc :=
  if bool_decide (name = "") then raise (ValueError "'name' may not be empty.")
  else if has_char "." name
  then raise (ValueError "'name' may not contain a dot '.' character.")
  else alloc (OBlueprint (Blueprint_obj name import_name None [] false)).

Definition load_blueprint (self : loc) : M blueprint :=
  o ← load self;
  match o with
  | OBlueprint b => mret b
  | _ => raise (TypeError "not a Blueprint")
  end.

(** [view_func.__name__] *)
Definition function_name (f : loc) : M string :=
  o ← load f;
  match o with
  | OFunction n _ => mret n
  | _ => raise (TypeError "not a function")
  end.

(** The [@setupmethod] guard of a blueprint. *)
Definition check_setup_finished (b : blueprint) : M unit :=
  if bp_got_registered_once b
  then raise (AssertionError "The setup method can no longer be called on the blueprint.")
  else mret tt.

(** [Blueprint.record(func)]: [self.deferred_functions.append(func)]. *)
Definition record (self : loc) (d : deferred) : M unit :=
  b ← load_blueprint self;
  check_setup_finished b;;
  store self (OBlueprint (Blueprint_obj (bp_name b) (bp_import_name b)
                            (bp_url_prefix b)
                            (bp_deferred_functions b ++ [d])
                            (bp_got_registered_once b))).

(** [Blueprint.add_url_rule(rule, endpoint, view_func,
    provide_automatic_options, **options)]. *)
Definition add_url_rule (self : loc) (rule : string) (endpoint : option string)
    (view_func : loc) (provide_automatic_options : option bool)
    (methods : option (list string)) : M unit :=
  b ← load_blueprint self;
  check_setup_finished b;;
  match endpoint with
  | Some e =>
      if has_char "." e
      then raise (ValueError "'endpoint' may not contain a dot '.' character.")
      else mret tt
  | None => mret tt
  end;;
  n ← function_name view_func;
  (if has_char "." n
   then raise (ValueError "'view_func' name may not contain a dot '.' character.")
   else mret tt);;
  record self (Deferred rule endpoint view_func provide_automatic_options methods).

(** [Scaffold.route(rule, **options)] applied to the decorated function:
    pops [endpoint] from the options, registers the rule, returns [f]. *)
Definition route (self : loc) (rule : string) (o : options) (f : loc) : M loc :=
  b ← load_blueprint self;
  check_setup_finished b;;
  add_url_rule self rule (o_endpoint o) f (o_provide_automatic_options o) (o_methods o);;
  mret f.

End Flask.

(** * The module [routes.py] *)

(** The response payload written in the handler. *)
Definition payload : list (string * value) :=
  [("status", VStr "Backend Case Study API Running")].

(** [def health_check(): return {"status": "Backend Case Study API Running"}]
    The dict display builds a new dict object on every call. *)
Definition health_check : M value :=
  d ← alloc (ODict payload);
  mret (VRef d).

(** Calling a function object runs its code; the handler takes no argument. *)
Definition run_code (c : code) : M value :=
  match c with
  | health_check_code => health_check
  end.

(** Top-level statements of the module, in order.  [name__] is the value of
    [__name__] under which the module is imported. *)
Definition routes_py (name__ : string) : M unit :=
  bp ← Flask.Blueprint "api" name__;
  set_global "api_routes" (VRef bp);;
  self ← get_global "api_routes";
  match self with
  | VRef self =>
      f ← alloc (OFunction "health_check" health_check_code);
      f' ← Flask.route self "/health" no_options f;
      set_global "health_check" (VRef f')
  | _ => raise (TypeError "object has no attribute 'route'")
  end.

(** * The framework: URL rules and matching *)

Module Werkzeug.

(** A URL rule without variable parts ([routes.py] registers none). *)
Record Rule := MkRule {
  r_rule : string;
  r_methods : gset string;
  r_endpoint : string;
  r_provide_automatic_options : bool
}.

(** [Rule(string, methods=methods, endpoint=endpoint)]: the rule must start
    with a slash, and a rule that accepts GET also accepts HEAD. *)
Definition new_Rule (string_ : string) (methods : gset string)
    (endpoint : string) : M Rule :=
  if starts_with_char "/" string_ then
    let methods :=
      if bool_decide ("HEAD" ∉ methods) && bool_decide ("GET" ∈ methods)
      then methods ∪ {["HEAD"]} else methods in
    mret (MkRule string_ methods endpoint false)
  else raise (ValueError "urls must start with a leading slash").

(** The rules whose path is exactly [p], in order: the first one that
    accepts [method] wins; the methods of the others are collected. *)
Fixpoint match_exact (rules : list Rule) (p method : string)
    (have_match_for : gset string) : Rule + gset string :=
  match rules with
  | [] => inr have_match_for
  | r :: rs =>
      if bool_decide (r_rule r = p) then
        if bool_decide (method ∈ r_methods r) then inl r
        else match_exact rs p method (have_match_for ∪ r_methods r)
      else match_exact rs p method have_match_for
  end.

(** Strict slashes: the path has no trailing slash, and a rule for the path
    followed by a slash accepts the method. *)
Definition slash_required (rules : list Rule) (p method : string) : bool :=
  negb (ends_with_char "/" p) &&
  existsb (λ r, bool_decide (r_rule r = p ++ "/") &&
                bool_decide (method ∈ r_methods r)) rules.

(** [MapAdapter.match] on the path and method of the request object, that
    is on [request.path] (one leading slash, whatever the raw path had) and
    [request.method] (upper case).  The matcher's second attempt with merged
    slashes is left out: it turns a path with a doubled slash that equals a
    rule once merged into a redirect, and no such path exists for a rule
    whose only slash is the leading one. *)
Definition url_match (rules : list Rule) (p method : string) : exn + Rule :=
  match match_exact rules p method ∅ with
  | inl r => inr r
  | inr have_match_for =>
      if slash_required rules p method then inl (RequestRedirect (p ++ "/"))
      else if bool_decide (have_match_for = ∅) then inl NotFound
      else inl (MethodNotAllowed have_match_for)
  end.

(** [MapAdapter.allowed_methods()]: the methods of every rule for the path. *)
Definition allowed_methods (rules : list Rule) (p : string) : gset string :=
  match url_match rules p "--" with
  | inl (MethodNotAllowed valid) => valid
  | _ => ∅
  end.

End Werkzeug.

Export Werkzeug.

(** * The framework: JSON output *)

Module Json.

Definition quote : string := String "034" "".
Definition newline : string := String "010" "".

Definition hex_digit (n : nat) : ascii :=
  default "0"%char (list_ascii_of_string "0123456789abcdef" !! n).

Definition hex4 (n : nat) : string :=
  String (hex_digit (n / 4096 mod 16))
    (String (hex_digit (n / 256 mod 16))
       (String (hex_digit (n / 16 mod 16))
          (String (hex_digit (n mod 16)) ""))).

(** [json.encoder.py_encode_basestring_ascii] on one character. *)
Definition escape_char (a : ascii) : string :=
  let n := nat_of_ascii a in
  if (n =? 34)%nat then "\" ++ quote
  else if (n =? 92)%nat then "\\"
  else if (n =? 10)%nat then "\n"
  else if (n =? 13)%nat then "\r"
  else if (n =? 9)%nat then "\t"
  else if (n =? 8)%nat then "\b"
  else if (n =? 12)%nat then "\f"
  else if (32 <=? n)%nat && (n <=? 126)%nat then String a ""
  else "\u" ++ hex4 n.

Fixpoint escape (s : string) : string :=
  match s with
  | EmptyString => EmptyString
  | String a s' => escape_char a ++ escape s'
  end.

Definition encode_str (s : string) : string := quote ++ escape s ++ quote.

(** [sort_keys=True]: items ordered by key. *)
Fixpoint insert_item {A} (kv : string * A) (l : list (string * A)) : list (string * A) :=
  match l with
  | [] => [kv]
  | kv' :: l' =>
      if String.leb (fst kv) (fst kv') then kv :: l else kv' :: insert_item kv l'
  end.

Definition sort_items {A} (l : list (string * A)) : list (string * A) :=
  foldr insert_item [] l.

Fixpoint spaces (n : nat) : string :=
  match n with
  | O => ""
  | S n' => String " " (spaces n')
  end.

Definition newline_indent (indent : option nat) (level : nat) : string :=
  match indent with
  | Some k => newline ++ spaces (k * level)
  | None => ""
  end.

Fixpoint join (sep : string) (l : list string) : string :=
  match l with
  | [] => ""
  | [x] => x
  | x :: l' => x ++ sep ++ join sep l'
  end.

(** Sequence a list of partial results, first error wins. *)
Fixpoint sequence {E A} (l : list (E + A)) : E + list A :=
  match l with
  | [] => inr []
  | inl e :: _ => inl e
  | inr a :: l' =>
      match sequence l' with
      | inl e => inl e
      | inr l'' => inr (a :: l'')
      end
  end.

(** [json.dumps(v, indent=indent, sort_keys=True, ensure_ascii=True)] with
    separators [(",", ":")] when [indent] is [None] and [(",", ": ")]
    otherwise.  References are followed through the heap; [fuel] bounds the
    nesting depth, so that a cyclic structure is rejected. *)
Fixpoint dumps (fuel : nat) (h : gmap loc obj) (indent : option nat)
    (level : nat) (v : value) : exn + string :=
  match v with
  | VNone => inr "null"
  | VStr s => inr (encode_str s)
  | VRef l =>
      match fuel with
      | O => inl (ValueError "Circular reference detected")
      | S fuel' =>
          match h !! l with
          | Some (ODict []) => inr "{}"
          | Some (ODict items) =>
              let key_separator :=
                match indent with Some _ => ": " | None => ":" end in
              let member (kv : string * value) :=
                match dumps fuel' h indent (S level) (snd kv) with
                | inl e => inl e
                | inr s => inr (encode_str (fst kv) ++ key_separator ++ s)
                end in
              match sequence (member <$> sort_items items) with
              | inl e => inl e
              | inr members =>
                  inr ("{" ++ newline_indent indent (S level)
                         ++ join ("," ++ newline_indent indent (S level)) members
                         ++ newline_indent indent level ++ "}")
              end
          | _ => inl (TypeError "Object is not JSON serializable")
          end
      end
  end.

End Json.

(** * The framework: the application, registration and dispatch *)

Module FlaskApp.

(** An application: its debug flag, URL map and endpoint table.  The
    application that mounts the blueprint is not part of [routes.py]; the
    URL map holds what blueprints contribute. *)
Record App := MkApp {
  debug : bool;
  url_map : list Rule;
  view_functions : gmap string loc
}.

(** A new application, before any rule is added (no static route). *)
Definition new_app (debug : bool) : App := MkApp debug [] ∅.

(** [App.add_url_rule(rule, endpoint, view_func, provide_automatic_options,
    methods=methods)].  A plain function carries no [methods],
    [required_methods] or [provide_automatic_options] attribute. *)
Definition app_add_url_rule (app : App) (rule : string) (endpoint : option string)
    (view_func : loc) (provide_automatic_options : option bool)
    (methods : option (list string)) : M App :=
  endpoint ← match endpoint with
             | Some e => mret e
             | None => Flask.function_name view_func
             end;
  let methods := match methods with Some ms => ms | None => ["GET"] end in
  let methods : gset string := list_to_set (upper <$> methods) in
  let required_methods : gset string := ∅ in
  let '(provide_automatic_options, required_methods) :=
    match provide_automatic_options with
    | Some b => (b, required_methods)
    | None =>
        if bool_decide ("OPTIONS" ∉ methods)
        then (true, required_methods ∪ {["OPTIONS"]})
        else (false, required_methods)
    end in
  let methods := methods ∪ required_methods in
  r ← new_Rule rule methods endpoint;
  let rule_obj :=
    MkRule (r_rule r) (r_methods r) (r_endpoint r) provide_automatic_options in
  match view_functions app !! endpoint with
  | Some old_func =>
      if bool_decide (old_func = view_func)
      then mret (MkApp (debug app) (url_map app ++ [rule_obj]) (view_functions app))
      else raise (AssertionError
             "View function mapping is overwriting an existing endpoint function")
  | None =>
      mret (MkApp (debug app) (url_map app ++ [rule_obj])
              (<[endpoint := view_func]> (view_functions app)))
  end.

(** [BlueprintSetupState.add_url_rule]: prefixes the rule with the URL
    prefix and the endpoint with the blueprint's name. *)
Definition state_add_url_rule (url_prefix : option string) (name : string)
    (app : App) (d : deferred) : M App :=
  let rule :=
    match url_prefix with
    | Some prefix =>
        if bool_decide (d_rule d = "") then prefix
        else rstrip "/" prefix ++ "/" ++ lstrip "/" (d_rule d)
    | None => d_rule d
    end in
  endpoint ← match d_endpoint d with
             | Some e => mret e
             | None => Flask.function_name (d_view_func d)
             end;
  app_add_url_rule app rule (Some (lstrip "." ("." ++ name ++ "." ++ endpoint)))
    (d_view_func d) (d_provide_automatic_options d) (d_methods d).

Fixpoint run_deferred (url_prefix : option string) (name : string)
    (app : App) (ds : list deferred) : M App :=
  match ds with
  | [] => mret app
  | d :: ds' =>
      app' ← state_add_url_rule url_prefix name app d;
      run_deferred url_prefix name app' ds'
  end.

(** [app.register_blueprint(blueprint, url_prefix=url_prefix)]: marks the
    blueprint as registered and runs its deferred functions in order. *)
Definition register_blueprint (app : App) (self : loc)
    (url_prefix : option string) : M App :=
  b ← Flask.load_blueprint self;
  store self (OBlueprint (Blueprint_obj (bp_name b) (bp_import_name b)
                            (bp_url_prefix b) (bp_deferred_functions b) true));;
  let url_prefix :=
    match url_prefix with Some p => Some p | None => bp_url_prefix b end in
  run_deferred url_prefix (bp_name b) app (bp_deferred_functions b).

(** ** Responses *)

Record Response := MkResponse {
  status_code : Z;
  content_type : string;
  allow : gset string;
  location : option string;
  data : string
}.

(** [werkzeug.utils.get_content_type(mimetype, "utf-8")] for the mimetypes
    that occur here: text types get a charset parameter. *)
Definition get_content_type (mimetype : string) : string :=
  if String.prefix "text/" mimetype then mimetype ++ "; charset=utf-8"
  else mimetype.

(** [Response(data, status=status, mimetype=mimetype)] *)
Definition new_Response (data : string) (status : Z) (mimetype : string) : Response :=
  MkResponse status (get_content_type mimetype) ∅ None data.

(** The page an [HTTPException] renders. *)
Definition error_page (code : string) (name description : string) : string :=
  "<!doctype html>" ++ Json.newline ++
  "<html lang=en>" ++ Json.newline ++
  "<title>" ++ code ++ " " ++ name ++ "</title>" ++ Json.newline ++
  "<h1>" ++ name ++ "</h1>" ++ Json.newline ++
  "<p>" ++ description ++ "</p>" ++ Json.newline.

Definition not_found_response : Response :=
  new_Response
    (error_page "404" "Not Found"
       "The requested URL was not found on the server. If you entered the URL manually please check your spelling and try again.")
    404 "text/html".

Definition method_not_allowed_response (valid_methods : gset string) : Response :=
  MkResponse 405 (get_content_type "text/html") valid_methods None
    (error_page "405" "Method Not Allowed"
       "The method is not allowed for the requested URL.").

(** The response of a [RequestRedirect]; the target is given by its path,
    scheme and host are not part of the model. *)
Definition redirect_response (new_path : string) : Response :=
  MkResponse 308 (get_content_type "text/html") ∅ (Some new_path)
    ("<!doctype html>" ++ Json.newline ++
     "<html lang=en>" ++ Json.newline ++
     "<title>Redirecting...</title>" ++ Json.newline ++
     "<h1>Redirecting...</h1>" ++ Json.newline ++
     "<p>You should be redirected automatically to the target URL: <a href="
       ++ Json.quote ++ new_path ++ Json.quote ++ ">" ++ new_path
       ++ "</a>. If not, click the link." ++ Json.newline).

Definition internal_server_error_response : Response :=
  new_Response
    (error_page "500" "Internal Server Error"
       "The server encountered an internal error and was unable to complete your request. Either the server is overloaded or there is an error in the application.")
    500 "text/html".

(** [app.json.response(v)]: compact output, or indented by two in debug
    mode, followed by a newline; mimetype [application/json]. *)
Definition json_response (app : App) (v : value) : M Response :=
  h ← get_heap;
  let indent := if debug app then Some 2%nat else None in
  match Json.dumps (S (size h)) h indent 0 v with
  | inl e => raise e
  | inr s => mret (new_Response (s ++ Json.newline) 200 "application/json")
  end.

(** What a view, or the framework in its place, hands to [make_response]. *)
Inductive view_rv :=
| RvValue (v : value)
| RvResponse (r : Response).

(** [app.make_response(rv)]: a [str] becomes an HTML response, a [dict] a
    JSON response, a response object is kept; [None] and other objects are
    a [TypeError]. *)
Definition make_response (app : App) (rv : view_rv) : M Response :=
  match rv with
  | RvResponse r => mret r
  | RvValue VNone =>
      raise (TypeError "The view function did not return a valid response.")
  | RvValue (VStr s) => mret (new_Response s 200 "text/html")
  | RvValue (VRef l) =>
      o ← load l;
      match o with
      | ODict _ => json_response app (VRef l)
      | _ => raise (TypeError "The view function did not return a valid response.")
      end
  end.

(** ** Dispatch *)

(** What [dispatch_request] does for a matched rule. *)
Inductive target :=
| View (f : loc)
| DefaultOptions.

(** The routing decision of [dispatch_request]: the routing exception, the
    automatic OPTIONS response, or the view function of the rule's endpoint. *)
Definition route_request (app : App) (req : request) : exn + target :=
  match url_match (url_map app) (path req) (method req) with
  | inl e => inl e
  | inr rule =>
      if r_provide_automatic_options rule && bool_decide (method req = "OPTIONS")
      then inr DefaultOptions
      else match view_functions app !! r_endpoint rule with
           | Some f => inr (View f)
           | None => inl (KeyError (r_endpoint rule))
           end
  end.

(** Calling a function object with no argument. *)
Definition call (f : loc) : M value :=
  o ← load f;
  match o with
  | OFunction _ c => run_code c
  | _ => raise (TypeError "object is not callable")
  end.

(** [app.make_default_options_response()] *)
Definition make_default_options_response (app : App) (req : request) : Response :=
  MkResponse 200 (get_content_type "text/html")
    (allowed_methods (url_map app) (path req)) None "".

Definition dispatch_request (app : App) (req : request) : M view_rv :=
  match route_request app req with
  | inl e => raise e
  | inr DefaultOptions => mret (RvResponse (make_default_options_response app req))
  | inr (View f) => v ← call f; mret (RvValue v)
  end.

(** [handle_user_exception]: an HTTP exception is its own response (no
    error handler is registered); anything else is raised again. *)
Definition handle_user_exception (e : exn) : M view_rv :=
  match e with
  | NotFound => mret (RvResponse not_found_response)
  | MethodNotAllowed valid => mret (RvResponse (method_not_allowed_response valid))
  | RequestRedirect p => mret (RvResponse (redirect_response p))
  | _ => raise e
  end.

Definition full_dispatch_request (app : App) (req : request) : M Response :=
  rv ← try_except (dispatch_request app req) handle_user_exception;
  make_response app rv.

(** [handle_exception]: an unhandled exception becomes a 500 response
    (exceptions are not propagated to the server). *)
Definition handle_exception (e : exn) : M Response :=
  mret internal_server_error_response.

(** The body is not sent in answer to HEAD. *)
Definition get_app_iter (req : request) (r : Response) : Response :=
  if bool_decide (method req = "HEAD")
  then MkResponse (status_code r) (content_type r) (allow r) (location r) ""
  else r.

(** [app.wsgi_app]: push the request context, dispatch, send, pop. *)
Definition wsgi_app (app : App) (req : request) : M Response :=
  outer ← get_request;
  set_request (Some req);;
  response ← try_except (full_dispatch_request app req) handle_exception;
  set_request outer;;
  mret (get_app_iter req response).

End FlaskApp.

Export FlaskApp.

(** * Deployment *)

(** A minimal application around the module: import [routes.py], then mount
    [api_routes] on a new application without a URL prefix, as
    [app.register_blueprint(api_routes)] does. *)
Definition deploy (name__ : string) (dbg : bool) : M App :=
  routes_py name__;;
  bp ← get_global "api_routes";
  match bp with
  | VRef self => register_blueprint (new_app dbg) self None
  | _ => raise (TypeError "not a Blueprint")
  end.

(** Serving a sequence of requests, one after the other. *)
Fixpoint serve_all (app : App) (reqs : list request) : M (list Response) :=
  match reqs with
  | [] => mret []
  | req :: reqs' =>
      r ← wsgi_app app req;
      rs ← serve_all app reqs';
      mret (r :: rs)
  end.

(** * Reading a JSON text

    The reader side of the contract: a parser for the JSON texts made of
    objects, strings and [null], used to say what a response body parses to. *)

Module JsonSpec.

#[warnings="-register-all"]
Inductive json :=
| JNull
| JString (s : string)
| JObject (members : list (string * json)).

Definition is_ws (a : ascii) : bool :=
  let n := nat_of_ascii a in
  (n =? 32)%nat || (n =? 9)%nat || (n =? 10)%nat || (n =? 13)%nat.

Fixpoint skip_ws (s : string) : string :=
  match s with
  | String a s' => if is_ws a then skip_ws s' else s
  | EmptyString => EmptyString
  end.

Definition hex_value (a : ascii) : option nat :=
  let n := nat_of_ascii a in
  if (48 <=? n)%nat && (n <=? 57)%nat then Some (n - 48)%nat
  else if (97 <=? n)%nat && (n <=? 102)%nat then Some (n - 87)%nat
  else if (65 <=? n)%nat && (n <=? 70)%nat then Some (n - 55)%nat
  else None.

(** The character a one-letter escape stands for. *)
Definition unescape (a : ascii) : option ascii :=
  let n := nat_of_ascii a in
  if (n =? 34)%nat || (n =? 92)%nat || (n =? 47)%nat then Some a
  else if (n =? 98)%nat then Some (ascii_of_nat 8)
  else if (n =? 102)%nat then Some (ascii_of_nat 12)
  else if (n =? 110)%nat then Some (ascii_of_nat 10)
  else if (n =? 114)%nat then Some (ascii_of_nat 13)
  else if (n =? 116)%nat then Some (ascii_of_nat 9)
  else None.

(** The characters of a string up to its closing quote, escapes decoded
    (code points below 256), and the text after the quote. *)
Fixpoint parse_chars (s : string) : option (string * string) :=
  match s with
  | EmptyString => None
  | String a s' =>
      if (nat_of_ascii a =? 34)%nat then Some (EmptyString, s')
      else if (nat_of_ascii a =? 92)%nat then
        match s' with
        | String "u" (String h1 (String h2 (String h3 (String h4 s'')))) =>
            match hex_value h1, hex_value h2, hex_value h3, hex_value h4 with
            | Some 0%nat, Some 0%nat, Some d3, Some d4 =>
                match parse_chars s'' with
                | Some (t, rest) => Some (String (ascii_of_nat (16 * d3 + d4)) t, rest)
                | None => None
                end
            | _, _, _, _ => None
            end
        | String b s'' =>
            match unescape b, parse_chars s'' with
            | Some c, Some (t, rest) => Some (String c t, rest)
            | _, _ => None
            end
        | EmptyString => None
        end
      else if (nat_of_ascii a <? 32)%nat then None
      else match parse_chars s' with
           | Some (t, rest) => Some (String a t, rest)
           | None => None
           end
  end.

Fixpoint parse_value (fuel : nat) (s : string) : option (json * string) :=
  match fuel with
  | O => None
  | S fuel' =>
      match skip_ws s with
      | String "n" (String "u" (String "l" (String "l" rest))) => Some (JNull, rest)
      | String "034" rest =>
          match parse_chars rest with
          | Some (t, rest') => Some (JString t, rest')
          | None => None
          end
      | String "{" rest =>
          match skip_ws rest with
          | String "}" rest' => Some (JObject [], rest')
          | _ =>
              match parse_members fuel' rest with
              | Some (ms, rest') => Some (JObject ms, rest')
              | None => None
              end
          end
      | _ => None
      end
  end
with parse_members (fuel : nat) (s : string) : option (list (string * json) * string) :=
  match fuel with
  | O => None
  | S fuel' =>
      match skip_ws s with
      | String "034" rest =>
          match parse_chars rest with
          | Some (k, rest1) =>
              match skip_ws rest1 with
              | String ":" rest2 =>
                  match parse_value fuel' rest2 with
                  | Some (v, rest3) =>
                      match skip_ws rest3 with
                      | String "," rest4 =>
                          match parse_members fuel' rest4 with
                          | Some (ms, rest5) => Some ((k, v) :: ms, rest5)
                          | None => None
                          end
                      | String "}" rest4 => Some ([(k, v)], rest4)
                      | _ => None
                      end
                  | None => None
                  end
              | _ => None
              end
          | None => None
          end
      | _ => None
      end
  end.

(** [json.loads(s)] on that fragment: one value, then only white space. *)
Definition loads (s : string) : option json :=
  match parse_value (S (String.length s)) s with
  | Some (v, rest) =>
      match skip_ws rest with
      | EmptyString => Some v
      | _ => None
      end
  | None => None
  end.

End JsonSpec.

(** The object [{"status": "Backend Case Study API Running"}]. *)
Definition expected_json : JsonSpec.json :=
  JsonSpec.JObject [("status", JsonSpec.JString "Backend Case Study API Running")].

(** The one rule that [routes.py] contributes to a URL map. *)
Definition health_rule : Rule :=
  MkRule "/health" {["GET"; "HEAD"; "OPTIONS"]} "api.health_check" true.

(** The state of the blueprint object after the module has run. *)
Definition api_blueprint (name__ : string) (f : loc) (registered : bool) : obj :=
  OBlueprint (Blueprint_obj "api" name__ None
                [Deferred "/health" None f None None] registered).

(** A request for the health endpoint with a given method. *)
Definition is_health (m : string) (req : request) : Prop :=
  method req = m ∧ path req = "/health".

(** The routing decision is a call of the function object that the module
    defined as [health_check]. *)
Definition invokes_health_check (app : App) (w : World) (req : request) : Prop :=
  ∃ f, route_request app req = inr (View f) ∧
       heap w !! f = Some (OFunction "health_check" health_check_code).

(** The application after deployment, with the handler at address [f]. *)
Definition health_app (dbg : bool) (f : loc) : App :=
  MkApp dbg [health_rule] {["api.health_check" := f]}.

(** The JSON text of the payload: compact, or indented by two in debug mode. *)
Definition payload_text (dbg : bool) : string :=
  if dbg
  then "{" ++ Json.newline ++ "  " ++ Json.quote ++ "status" ++ Json.quote ++ ": "
         ++ Json.quote ++ "Backend Case Study API Running" ++ Json.quote
         ++ Json.newline ++ "}"
  else "{" ++ Json.quote ++ "status" ++ Json.quote ++ ":"
         ++ Json.quote ++ "Backend Case Study API Running" ++ Json.quote ++ "}".

(** The response to a successful call of the handler. *)
Definition health_response (dbg : bool) : Response :=
  new_Response (payload_text dbg ++ Json.newline) 200 "application/json".

(** [app] was obtained by deploying the module, and [w] is a store in which
    every object that existed right after deployment is unchanged. *)
Definition deployed (app : App) (w : World) : Prop :=
  ∃ name__ dbg w0 w1, deploy name__ dbg w0 = Ok app w1 ∧ heap w1 ⊆ heap w.

(** The objects of [w] are unchanged in [w'], the globals and the request
    context are the same, and every new object is a payload dict. *)
Definition same_observable_state (w w' : World) : Prop :=
  globals w' = globals w ∧
  current_request w' = current_request w ∧
  heap w ⊆ heap w' ∧
  ∀ l o, heap w' !! l = Some o → heap w !! l = None → o = ODict payload.

(** The address that the next allocation in [w] returns. *)
Definition new_loc (w : World) : loc := fresh (dom (heap w)).

(** The store after one call of the handler: one more dict. *)
Definition after_call (w : World) : World :=
  MkWorld (<[new_loc w := ODict payload]> (heap w)) (globals w) (current_request w).

(** A concrete deployment: the module imported as [routes] into an empty
    store, without debug mode. *)
Definition empty_world : World := MkWorld ∅ ∅ None.

Definition example_app : App := health_app false 2%positive.

Definition example_world : World :=
  MkWorld
    (<[1%positive := api_blueprint "routes" 2%positive true]>
       (<[2%positive := OFunction "health_check" health_check_code]> ∅))
    (<["health_check" := VRef 2%positive]> (<["api_routes" := VRef 1%positive]> ∅))
    None.

Definition get_health : request := Request "GET" "/health" "" [] "".

Definition head_health : request := Request "HEAD" "/health" "" [] "".

Definition post_status : request := Request "POST" "/status" "" [] "".

Definition get_health_slash : request := Request "GET" "/health/" "" [] "".

(** Another GET for [/health], with a query string, headers and a body. *)
Definition get_health_noisy : request :=
  Request "GET" "/health" "verbose=1" [("Accept", "text/plain"); ("X-Probe", "lb")] "ping".

(** The answer the framework gives to OPTIONS on [/health]. *)
Definition options_response : Response :=
  MkResponse 200 "text/html; charset=utf-8" {["GET"; "HEAD"; "OPTIONS"]} None "".

Definition options_health : request := Request "OPTIONS" "/health" "" [] "".

Definition delete_health : request := Request "DELETE" "/health" "" [] "".

(** * Running monadic code *)

Section Run.
Context {A B : Type}.

Lemma run_bind (m : M A) (k : A → M B) w :
  (m ≫= k) w =
    match m w with
    | Ok a w' => k a w'
    | Raise e w' => Raise e w'
    end.
Proof. reflexivity. Qed.

Lemma run_ret (a : A) w : (mret a : M A) w = Ok a w.
Proof. reflexivity. Qed.

Lemma run_raise (e : exn) w : raise e w = @Raise A e w.
Proof. reflexivity. Qed.

Lemma run_try (m : M A) (h : exn → M A) w :
  try_except m h w =
    match m w with
    | Ok a w' => Ok a w'
    | Raise e w' => h e w'
    end.
Proof. reflexivity. Qed.

End Run.

Lemma run_alloc o w :
  alloc o w =
    Ok (fresh (dom (heap w)))
       (MkWorld (<[fresh (dom (heap w)) := o]> (heap w)) (globals w) (current_request w)).
Proof. reflexivity. Qed.

Lemma run_load l w :
  load l w =
    match heap w !! l with
    | Some o => Ok o w
    | None => Raise (KeyError "dangling reference") w
    end.
Proof. unfold load. rewrite run_bind. simpl. by destruct (heap w !! l). Qed.

Lemma run_store l o w :
  store l o w = Ok tt (MkWorld (<[l := o]> (heap w)) (globals w) (current_request w)).
Proof. reflexivity. Qed.

Lemma run_get_heap w : get_heap w = Ok (heap w) w.
Proof. reflexivity. Qed.

Lemma run_set_global x v w :
  set_global x v w = Ok tt (MkWorld (heap w) (<[x := v]> (globals w)) (current_request w)).
Proof. reflexivity. Qed.

Lemma run_get_global x w :
  get_global x w =
    match globals w !! x with
    | Some v => Ok v w
    | None => Raise (NameError x) w
    end.
Proof. reflexivity. Qed.

Lemma run_get_request w : get_request w = Ok (current_request w) w.
Proof. reflexivity. Qed.

Lemma run_set_request r w :
  set_request r w = Ok tt (MkWorld (heap w) (globals w) r).
Proof. reflexivity. Qed.

Lemma fresh_heap (h : gmap loc obj) : h !! fresh (dom h) = None.
Proof. apply not_elem_of_dom, is_fresh. Qed.

#[local] Opaque alloc.

Ltac run :=
  repeat (rewrite ?run_bind, ?run_ret, ?run_raise, ?run_try, ?run_load, ?run_store,
            ?run_get_heap, ?run_set_global, ?run_get_global, ?run_get_request,
            ?run_set_request;
          simpl).

Ltac heap_lookup :=
  repeat first
    [ rewrite lookup_insert_eq
    | rewrite lookup_insert_ne by done
    | match goal with
      | H : ?h !! ?l = _ |- context [?h !! ?l] => rewrite H
      end ].

(** One allocation: name the new address and record that it was unused. *)
Ltac alloc_as l Hl :=
  rewrite run_alloc; cbn [heap globals current_request];
  match goal with
  | |- context [fresh (dom ?h)] =>
      pose proof (fresh_heap h) as Hl;
      set (l := fresh (dom h)) in *; clearbody l;
      repeat (apply lookup_insert_None in Hl as [Hl ?])
  end.

Ltac exec := repeat first [ progress run | progress heap_lookup ].

(** * The module and its deployment *)

(** Importing the module always succeeds; it creates the blueprint and the
    function at two unused addresses, records one deferred rule on the
    blueprint and binds the two module globals. *)
Lemma routes_py_Ok name__ w0 :
  ∃ bp f,
    heap w0 !! bp = None ∧ heap w0 !! f = None ∧ bp ≠ f ∧
    routes_py name__ w0 =
      Ok tt (MkWorld
               (<[bp := api_blueprint name__ f false]>
                  (<[f := OFunction "health_check" health_check_code]> (heap w0)))
               (<["health_check" := VRef f]> (<["api_routes" := VRef bp]> (globals w0)))
               (current_request w0)).
Proof.
  unfold routes_py.
  change (Flask.Blueprint "api" name__)
    with (alloc (OBlueprint (Blueprint_obj "api" name__ None [] false))).
  unfold Flask.route, Flask.add_url_rule, Flask.record, Flask.load_blueprint,
    Flask.function_name, Flask.check_setup_finished.
  exec. alloc_as bp Hbp. exec. alloc_as f Hf. exec.
  exists bp, f. repeat split; try done.
  rewrite (insert_insert_ne _ f bp) by done.
  by rewrite insert_insert_eq.
Qed.

(** Registering the rule of [routes.py] on a new application: the methods
    default to GET, to which OPTIONS and HEAD are added. *)
Lemma add_health_rule dbg f w :
  app_add_url_rule (new_app dbg) "/health" (Some "api.health_check") f None None w
  = Ok (health_app dbg f) w.
Proof. vm_compute. reflexivity. Qed.

#[local] Opaque app_add_url_rule.

(** Deployment always succeeds: the URL map holds the single rule
    [/health], for GET, HEAD and OPTIONS, bound to the function object of
    [health_check]. *)
Lemma deploy_Ok name__ dbg w0 :
  ∃ bp f,
    heap w0 !! bp = None ∧ heap w0 !! f = None ∧ bp ≠ f ∧
    deploy name__ dbg w0 =
      Ok (health_app dbg f)
         (MkWorld
            (<[bp := api_blueprint name__ f true]>
               (<[f := OFunction "health_check" health_check_code]> (heap w0)))
            (<["health_check" := VRef f]> (<["api_routes" := VRef bp]> (globals w0)))
            (current_request w0)).
Proof.
  destruct (routes_py_Ok name__ w0) as (bp & f & Hbp & Hf & Hne & Hrun).
  exists bp, f. repeat split; try done.
  unfold deploy. rewrite run_bind, Hrun. exec.
  unfold register_blueprint, Flask.load_blueprint, api_blueprint. exec.
  rewrite insert_insert_eq.
  unfold state_add_url_rule, Flask.function_name. exec.
  match goal with
  | |- context [app_add_url_rule ?a ?r ?e ?v ?p ?m ?w] =>
      change (app_add_url_rule a r e v p m w)
        with (app_add_url_rule (new_app dbg) "/health" (Some "api.health_check")
                f None None w)
  end.
  by rewrite add_health_rule.
Qed.

(** * Routing on the deployed application *)

Lemma ends_with_char_app c p : ends_with_char c (p ++ String c "") = true.
Proof.
  induction p as [|a p IH]; simpl.
  - apply Ascii.eqb_refl.
  - destruct (p ++ String c "") eqn:E; [discriminate IH | exact IH].
Qed.

Lemma health_not_slashed p : "/health" ≠ p ++ "/".
Proof.
  intros H. pose proof (ends_with_char_app "/" p) as Hp.
  rewrite <- H in Hp. discriminate Hp.
Qed.

Lemma health_methods_nonempty :
  bool_decide ((∅ ∪ {["GET"; "HEAD"; "OPTIONS"]} : gset string) = ∅) = false.
Proof. vm_compute. reflexivity. Qed.

Lemma health_methods_union :
  (∅ ∪ {["GET"; "HEAD"; "OPTIONS"]} : gset string) = {["GET"; "HEAD"; "OPTIONS"]}.
Proof. vm_compute. reflexivity. Qed.

(** URL matching against the single rule: an exact path and one of the
    three methods, else 405 on the path and 404 elsewhere. *)
Lemma url_match_health p m :
  url_match [health_rule] p m =
    if bool_decide (p = "/health") then
      if bool_decide (m ∈ ({["GET"; "HEAD"; "OPTIONS"]} : gset string))
      then inr health_rule
      else inl (MethodNotAllowed {["GET"; "HEAD"; "OPTIONS"]})
    else inl NotFound.
Proof.
  unfold url_match, match_exact, slash_required, existsb, health_rule.
  cbn [r_rule r_methods].
  case_bool_decide as Hp.
  - subst p. rewrite (bool_decide_eq_true_2 ("/health" = "/health")) by done.
    case_bool_decide as Hm; [done|].
    rewrite (bool_decide_eq_false_2 ("/health" = "/health" ++ "/")) by done.
    rewrite andb_false_l, orb_false_l, andb_false_r.
    by rewrite health_methods_nonempty, health_methods_union.
  - rewrite (bool_decide_eq_false_2 (p = "/health")) by done.
    rewrite (bool_decide_eq_false_2 ("/health" = p ++ "/"))
      by apply health_not_slashed.
    by rewrite andb_false_l, orb_false_l, andb_false_r.
Qed.

Lemma route_request_health dbg f req :
  route_request (health_app dbg f) req =
    if bool_decide (path req = "/health") then
      if bool_decide (method req ∈ ({["GET"; "HEAD"; "OPTIONS"]} : gset string)) then
        if bool_decide (method req = "OPTIONS") then inr DefaultOptions
        else inr (View f)
      else inl (MethodNotAllowed {["GET"; "HEAD"; "OPTIONS"]})
    else inl NotFound.
Proof.
  unfold route_request, health_app. cbn [url_map view_functions].
  rewrite url_match_health.
  by repeat case_bool_decide.
Qed.

(** * The handler and the response it leads to *)

(** The handler returns normally, with a reference to a new dict that holds
    the payload; nothing else in the store changes. *)
Lemma health_check_Ok w : health_check w = Ok (VRef (new_loc w)) (after_call w).
Proof. unfold health_check. rewrite run_bind, run_alloc. by exec. Qed.

Lemma new_loc_fresh w : heap w !! new_loc w = None.
Proof. apply fresh_heap. Qed.

Lemma dumps_payload n (h : gmap loc obj) (dbg : bool) l :
  h !! l = Some (ODict payload) →
  Json.dumps (S n) h (if dbg then Some 2%nat else None) 0 (VRef l)
  = inr (payload_text dbg).
Proof.
  intros H. cbn [Json.dumps]. rewrite H. by destruct dbg, n.
Qed.

#[local] Opaque Json.dumps.

(** Turning the handler's dict into a response reads the store only. *)
Lemma make_response_payload app l w :
  heap w !! l = Some (ODict payload) →
  make_response app (RvValue (VRef l)) w = Ok (health_response (debug app)) w.
Proof.
  intros H. unfold make_response, json_response. exec.
  by rewrite (dumps_payload _ _ (debug app) l H).
Qed.

Lemma make_response_response app r w :
  make_response app (RvResponse r) w = Ok r w.
Proof. reflexivity. Qed.

#[local] Opaque make_response.

Lemma world_eta w : MkWorld (heap w) (globals w) (current_request w) = w.
Proof. by destruct w. Qed.

(** * Serving one request on the deployed application *)

Lemma allowed_methods_health :
  allowed_methods [health_rule] "/health" = {["GET"; "HEAD"; "OPTIONS"]}.
Proof. vm_compute. reflexivity. Qed.

Section Serve.
Context (dbg : bool) (f : loc) (req : request) (w : World).

(** GET and HEAD on [/health] call the handler: the response is the JSON
    response, and the store gains the handler's dict and nothing else. *)
Lemma wsgi_app_view :
  heap w !! f = Some (OFunction "health_check" health_check_code) →
  path req = "/health" →
  method req = "GET" ∨ method req = "HEAD" →
  wsgi_app (health_app dbg f) req w =
    Ok (get_app_iter req (health_response dbg)) (after_call w).
Proof.
  intros Hf Hp Hm.
  unfold wsgi_app, full_dispatch_request, dispatch_request.
  rewrite route_request_health, Hp.
  rewrite (bool_decide_eq_true_2 ("/health" = "/health")) by done.
  rewrite (bool_decide_eq_true_2 (method req ∈ _)) by (destruct Hm as [-> | ->]; set_solver).
  rewrite (bool_decide_eq_false_2 (method req = "OPTIONS"))
    by (destruct Hm as [-> | ->]; done).
  unfold call. exec. rewrite health_check_Ok. exec.
  rewrite (make_response_payload _ (new_loc w)) by apply lookup_insert_eq.
  by exec.
Qed.

(** Any path other than [/health] is answered 404 without touching the store. *)
Lemma wsgi_app_not_found :
  path req ≠ "/health" →
  wsgi_app (health_app dbg f) req w = Ok (get_app_iter req not_found_response) w.
Proof.
  intros Hp.
  unfold wsgi_app, full_dispatch_request, dispatch_request.
  rewrite route_request_health.
  rewrite (bool_decide_eq_false_2 (path req = "/health")) by done.
  exec. rewrite make_response_response. exec. by rewrite world_eta.
Qed.

(** A method outside the rule's methods is answered 405 on [/health]. *)
Lemma wsgi_app_method_not_allowed :
  path req = "/health" →
  method req ∉ ({["GET"; "HEAD"; "OPTIONS"]} : gset string) →
  wsgi_app (health_app dbg f) req w =
    Ok (method_not_allowed_response {["GET"; "HEAD"; "OPTIONS"]}) w.
Proof.
  intros Hp Hm.
  unfold wsgi_app, full_dispatch_request, dispatch_request.
  rewrite route_request_health, Hp.
  rewrite (bool_decide_eq_true_2 ("/health" = "/health")) by done.
  rewrite (bool_decide_eq_false_2 (method req ∈ _)) by done.
  exec. rewrite make_response_response. exec. rewrite world_eta. unfold get_app_iter.
  rewrite bool_decide_eq_false_2; [done|].
  intros E. apply Hm. rewrite E. set_solver.
Qed.

(** OPTIONS on [/health] is answered by the framework itself. *)
Lemma wsgi_app_options :
  path req = "/health" →
  method req = "OPTIONS" →
  wsgi_app (health_app dbg f) req w =
    Ok (MkResponse 200 "text/html; charset=utf-8" {["GET"; "HEAD"; "OPTIONS"]} None "") w.
Proof.
  intros Hp Hm.
  unfold wsgi_app, full_dispatch_request, dispatch_request.
  rewrite route_request_health, Hp, Hm.
  rewrite (bool_decide_eq_true_2 ("/health" = "/health")) by done.
  rewrite (bool_decide_eq_true_2 ("OPTIONS" ∈ _)) by set_solver.
  rewrite (bool_decide_eq_true_2 ("OPTIONS" = "OPTIONS")) by done.
  exec. rewrite make_response_response. exec.
  rewrite world_eta. unfold get_app_iter, make_default_options_response.
  rewrite Hm, Hp. cbn [health_app url_map]. rewrite allowed_methods_health.
  by rewrite bool_decide_eq_false_2.
Qed.

End Serve.

(** * Facts about a deployment *)

Lemma example_deploy : deploy "routes" false empty_world = Ok example_app example_world.
Proof. vm_compute. reflexivity. Qed.

Lemma example_deployed : deployed example_app example_world.
Proof. exists "routes", false, empty_world, example_world. split; [apply example_deploy | done]. Qed.

(** A deployed application is the one-rule application, and the function
    object of the handler is in the store. *)
Lemma deployed_inv app w :
  deployed app w →
  ∃ f, app = health_app (debug app) f ∧
       heap w !! f = Some (OFunction "health_check" health_check_code).
Proof.
  intros (name__ & dbg & w0 & w1 & Hdep & Hsub).
  destruct (deploy_Ok name__ dbg w0) as (bp & f & _ & _ & Hne & Hrun).
  rewrite Hrun in Hdep. injection Hdep as <- <-.
  exists f. split; [done|].
  eapply lookup_weaken; [|exact Hsub].
  cbn [heap]. rewrite lookup_insert_ne by done. apply lookup_insert_eq.
Qed.

(** A store that only grew keeps the deployment. *)
Lemma deployed_mono app w w' :
  deployed app w → heap w ⊆ heap w' → deployed app w'.
Proof.
  intros (name__ & dbg & w0 & w1 & Hdep & Hsub) Hw.
  exists name__, dbg, w0, w1. split; [done|]. by etrans.
Qed.

Lemma same_observable_state_refl w : same_observable_state w w.
Proof. repeat split; try done. intros l o H1 H2. congruence. Qed.

Lemma same_observable_state_trans w1 w2 w3 :
  same_observable_state w1 w2 → same_observable_state w2 w3 →
  same_observable_state w1 w3.
Proof.
  intros (Hg1 & Hr1 & Hs1 & Hn1) (Hg2 & Hr2 & Hs2 & Hn2).
  repeat split; [congruence | congruence | by etrans |].
  intros l o H3 H1.
  destruct (heap w2 !! l) as [o'|] eqn:E.
  - rewrite (lookup_weaken _ _ _ _ E Hs2) in H3. injection H3 as <-. eauto.
  - eauto.
Qed.

Lemma same_observable_state_alloc w l :
  heap w !! l = None →
  same_observable_state w
    (MkWorld (<[l := ODict payload]> (heap w)) (globals w) (current_request w)).
Proof.
  intros Hl. repeat split; cbn [heap globals current_request].
  - by apply insert_subseteq.
  - intros l' o H1 H2. destruct (decide (l = l')) as [->|Hne].
    + rewrite lookup_insert_eq in H1. by injection H1.
    + rewrite lookup_insert_ne in H1 by done. congruence.
Qed.

Lemma loads_payload dbg :
  JsonSpec.loads (payload_text dbg ++ Json.newline) = Some expected_json.
Proof. destruct dbg; vm_compute; reflexivity. Qed.

(** What a GET on [/health] gives on a deployed application. *)
Lemma serve_get app w req :
  deployed app w → is_health "GET" req →
  wsgi_app app req w = Ok (health_response (debug app)) (after_call w).
Proof.
  intros Hd [Hm Hp].
  destruct (deployed_inv _ _ Hd) as (f & Happ & Hf).
  rewrite Happ at 1. rewrite (wsgi_app_view (debug app) f req w Hf Hp (or_introl Hm)).
  unfold get_app_iter. rewrite Hm. by rewrite bool_decide_eq_false_2.
Qed.

Lemma same_observable_state_after_call w : same_observable_state w (after_call w).
Proof. apply same_observable_state_alloc, new_loc_fresh. Qed.

Lemma deployed_after_call app w : deployed app w → deployed app (after_call w).
Proof.
  intros H. eapply deployed_mono; [exact H|].
  apply insert_subseteq, new_loc_fresh.
Qed.

(** On a deployed application the handler is called exactly for GET and
    HEAD requests to [/health]. *)
Lemma invokes_spec app w req :
  deployed app w →
  invokes_health_check app w req ↔
  path req = "/health" ∧ (method req = "GET" ∨ method req = "HEAD").
Proof.
  intros Hd. destruct (deployed_inv _ _ Hd) as (f & Happ & Hf).
  unfold invokes_health_check. rewrite Happ, route_request_health.
  split.
  - intros (f' & Hr & _).
    case_bool_decide as Hp; [|done].
    case_bool_decide as Hm; [|done].
    case_bool_decide as Ho; [done|].
    split; [done|].
    apply elem_of_union in Hm as [Hm|Hm%elem_of_singleton]; [|done].
    apply elem_of_union in Hm as [Hm%elem_of_singleton|Hm%elem_of_singleton]; auto.
  - intros [Hp Hm]. exists f. split; [|done].
    rewrite (bool_decide_eq_true_2 _ Hp).
    rewrite bool_decide_eq_true_2 by (destruct Hm as [-> | ->]; set_solver).
    rewrite bool_decide_eq_false_2 by (destruct Hm as [-> | ->]; done).
    done.
Qed.

(** * The claims *)

(** C1.  Every GET request to [/health] is dispatched to [health_check]; the
    response has status code 200 and its body parses as JSON to exactly the
    object with the single key [status] and the value
    [Backend Case Study API Running]. *)
Theorem get_health_dispatch_status_body app w req :
  deployed app w → is_health "GET" req →
  invokes_health_check app w req ∧
  ∃ r w', wsgi_app app req w = Ok r w' ∧
          status_code r = 200%Z ∧
          JsonSpec.loads (data r) = Some expected_json.
Proof.
  intros Hd Hreq. split.
  - apply invokes_spec; [done|]. destruct Hreq as [Hm Hp]. auto.
  - exists (health_response (debug app)), (after_call w).
    split; [by apply serve_get|]. split; [done|].
    apply loads_payload.
Qed.

Lemma get_health_dispatch_status_body_witness :
  deployed example_app example_world ∧ is_health "GET" get_health ∧
  invokes_health_check example_app example_world get_health ∧
  ∃ r w', wsgi_app example_app get_health example_world = Ok r w' ∧
          status_code r = 200%Z ∧
          JsonSpec.loads (data r) = Some expected_json.
Proof.
  split; [exact example_deployed|]. split; [by split|].
  apply (get_health_dispatch_status_body example_app example_world get_health).
  - exact example_deployed.
  - split; reflexivity.
Defined.

(** C2.  A request whose path is not [/health], or whose method is not among
    the methods routed for [/health], does not invoke [health_check]; it is
    answered with the framework's not-found (404) or method-not-allowed (405)
    response, and the store is left as it was. *)
Theorem other_requests_not_found_or_not_allowed app w req :
  deployed app w →
  path req ≠ "/health" ∨ method req ∉ allowed_methods (url_map app) "/health" →
  ¬ invokes_health_check app w req ∧
  ∃ r, wsgi_app app req w = Ok r w ∧
       ((path req ≠ "/health" ∧ status_code r = 404%Z) ∨
        (path req = "/health" ∧ status_code r = 405%Z)).
Proof.
  intros Hd Hreq.
  destruct (deployed_inv _ _ Hd) as (f & Happ & Hf).
  destruct (decide (path req = "/health")) as [Hp|Hp].
  - destruct Hreq as [Hreq|Hm]; [done|].
    rewrite Happ in Hm. cbn [health_app url_map] in Hm.
    rewrite allowed_methods_health in Hm.
    split.
    + rewrite (invokes_spec _ _ _ Hd). intros [_ [E|E]]; apply Hm; rewrite E; set_solver.
    + exists (method_not_allowed_response {["GET"; "HEAD"; "OPTIONS"]}).
      split; [|by right].
      rewrite Happ at 1. by apply wsgi_app_method_not_allowed.
  - split.
    + rewrite (invokes_spec _ _ _ Hd). by intros [E _].
    + exists (get_app_iter req not_found_response).
      split; [rewrite Happ at 1; by apply wsgi_app_not_found|].
      left. split; [done|]. unfold get_app_iter. by case_bool_decide.
Qed.

Lemma other_requests_not_found_or_not_allowed_witness :
  deployed example_app example_world ∧
  (path post_status ≠ "/health" ∨
   method post_status ∉ allowed_methods (url_map example_app) "/health") ∧
  ¬ invokes_health_check example_app example_world post_status ∧
  ∃ r, wsgi_app example_app post_status example_world = Ok r example_world ∧
       ((path post_status ≠ "/health" ∧ status_code r = 404%Z) ∨
        (path post_status = "/health" ∧ status_code r = 405%Z)).
Proof.
  split; [exact example_deployed|]. split; [by left|].
  apply (other_requests_not_found_or_not_allowed example_app example_world post_status).
  - exact example_deployed.
  - left. simpl. discriminate.
Defined.

(** C3, as the code has it.  The registration passes no [methods] argument,
    so the framework's defaults apply: the rule for [/health] accepts exactly
    GET, HEAD and OPTIONS, and [health_check] is invoked exactly for GET and
    for HEAD (OPTIONS is answered by the framework without calling it). *)
Theorem health_rule_methods app w :
  deployed app w →
  allowed_methods (url_map app) "/health" = {["GET"; "HEAD"; "OPTIONS"]} ∧
  ∀ req, path req = "/health" →
    ((∃ r, url_match (url_map app) (path req) (method req) = inr r) ↔
     method req ∈ ({["GET"; "HEAD"; "OPTIONS"]} : gset string)) ∧
    (invokes_health_check app w req ↔ method req = "GET" ∨ method req = "HEAD").
Proof.
  intros Hd. destruct (deployed_inv _ _ Hd) as (f & Happ & Hf).
  split.
  - rewrite Happ. apply allowed_methods_health.
  - intros req Hp. split.
    + rewrite Happ. cbn [health_app url_map]. rewrite url_match_health, Hp.
      rewrite (bool_decide_eq_true_2 ("/health" = "/health")) by done.
      case_bool_decide as Hm; split; try done.
      * intros _. by eexists.
      * by intros [r Hr].
    + rewrite (invokes_spec _ _ _ Hd). intuition.
Qed.

Lemma health_rule_methods_witness :
  deployed example_app example_world ∧
  allowed_methods (url_map example_app) "/health" = {["GET"; "HEAD"; "OPTIONS"]} ∧
  ∀ req, path req = "/health" →
    ((∃ r, url_match (url_map example_app) (path req) (method req) = inr r) ↔
     method req ∈ ({["GET"; "HEAD"; "OPTIONS"]} : gset string)) ∧
    (invokes_health_check example_app example_world req ↔
     method req = "GET" ∨ method req = "HEAD").
Proof.
  split; [exact example_deployed|].
  apply (health_rule_methods example_app example_world).
  exact example_deployed.
Defined.

(** C3, as stated, fails: a HEAD request to [/health] matches the route and
    invokes [health_check], so GET is not the only such method. *)
Lemma head_invokes_health_check :
  ¬ (∀ req, path req = "/health" →
            invokes_health_check example_app example_world req →
            method req = "GET").
Proof.
  intros H.
  specialize (H head_health eq_refl).
  assert (Hinv : invokes_health_check example_app example_world head_health).
  { exists 2%positive. split; vm_compute; reflexivity. }
  specialize (H Hinv). discriminate H.
Qed.

(** The HEAD request runs the handler, which leaves its dict in the store;
    the answer is the JSON response without its body. *)
Example head_health_runs_handler :
  wsgi_app example_app head_health example_world =
    Ok (MkResponse 200 "application/json" ∅ None "") (after_call example_world).
Proof. vm_compute. reflexivity. Qed.

(** C4.  Every GET request to [/health] is answered with the content type
    [application/json]: the dict returned by the handler is serialised as a
    JSON response. *)
Theorem get_health_content_type app w req :
  deployed app w → is_health "GET" req →
  ∃ r w', wsgi_app app req w = Ok r w' ∧ content_type r = "application/json".
Proof.
  intros Hd Hreq.
  exists (health_response (debug app)), (after_call w).
  split; [by apply serve_get | done].
Qed.

Lemma get_health_content_type_witness :
  deployed example_app example_world ∧ is_health "GET" get_health ∧
  ∃ r w', wsgi_app example_app get_health example_world = Ok r w' ∧
          content_type r = "application/json".
Proof.
  split; [exact example_deployed|]. split; [by split|].
  apply (get_health_content_type example_app example_world get_health).
  - exact example_deployed.
  - split; reflexivity.
Defined.

(** C5.  The endpoint is idempotent: for every [n] and every sequence of [n]
    GET requests to [/health], every response is the same one, and after the
    sequence the globals, the request context and every object that existed
    before are unchanged (the only new objects are the payload dicts). *)
Theorem repeated_get_health_idempotent app n reqs :
  length reqs = n →
  Forall (is_health "GET") reqs →
  ∀ w, deployed app w →
  ∃ w', serve_all app reqs w = Ok (replicate n (health_response (debug app))) w' ∧
        same_observable_state w w'.
Proof.
  intros <- Hall. induction Hall as [|req reqs Hreq Hall IH]; intros w Hd.
  - exists w. split; [done | apply same_observable_state_refl].
  - destruct (IH (after_call w) (deployed_after_call _ _ Hd)) as (w' & Hrun & Hsame).
    exists w'. split.
    + cbn [serve_all length replicate].
      rewrite run_bind, (serve_get _ _ _ Hd Hreq), run_bind, Hrun. done.
    + eapply same_observable_state_trans; [|exact Hsame].
      apply same_observable_state_after_call.
Qed.

Lemma repeated_get_health_idempotent_witness :
  length [get_health; get_health_noisy; get_health] = 3%nat ∧
  Forall (is_health "GET") [get_health; get_health_noisy; get_health] ∧
  deployed example_app example_world ∧
  ∃ w', serve_all example_app [get_health; get_health_noisy; get_health] example_world
        = Ok (replicate 3 (health_response (debug example_app))) w' ∧
        same_observable_state example_world w'.
Proof.
  assert (Hall : Forall (is_health "GET") [get_health; get_health_noisy; get_health])
    by (repeat constructor).
  split; [reflexivity|]. split; [exact Hall|]. split; [exact example_deployed|].
  apply (repeated_get_health_idempotent example_app 3
           [get_health; get_health_noisy; get_health] eq_refl Hall
           example_world example_deployed).
Defined.

(** C6.  The handler consumes no request data: two GET requests to [/health]
    get equal responses whatever their query strings, headers and bodies,
    from any two stores; from the same store the two runs also end in the
    same store.  The handler's own result does not depend on the store it
    runs in. *)
Theorem request_data_not_consumed app w1 w2 req1 req2 :
  deployed app w1 → deployed app w2 →
  is_health "GET" req1 → is_health "GET" req2 →
  (∃ r w1' w2', wsgi_app app req1 w1 = Ok r w1' ∧ wsgi_app app req2 w2 = Ok r w2') ∧
  wsgi_app app req1 w1 = wsgi_app app req2 w1 ∧
  ∃ l1 l2 w1' w2',
    health_check w1 = Ok (VRef l1) w1' ∧ health_check w2 = Ok (VRef l2) w2' ∧
    heap w1' !! l1 = heap w2' !! l2.
Proof.
  intros Hd1 Hd2 Hr1 Hr2. split; [|split].
  - exists (health_response (debug app)), (after_call w1), (after_call w2).
    split; by apply serve_get.
  - by rewrite !serve_get.
  - exists (new_loc w1), (new_loc w2), (after_call w1), (after_call w2).
    rewrite !health_check_Ok. repeat split.
    unfold after_call. cbn [heap]. by rewrite !lookup_insert_eq.
Qed.

Lemma request_data_not_consumed_witness :
  deployed example_app example_world ∧ deployed example_app (after_call example_world) ∧
  is_health "GET" get_health ∧ is_health "GET" get_health_noisy ∧
  (∃ r w1' w2',
     wsgi_app example_app get_health example_world = Ok r w1' ∧
     wsgi_app example_app get_health_noisy (after_call example_world) = Ok r w2') ∧
  wsgi_app example_app get_health example_world
  = wsgi_app example_app get_health_noisy example_world ∧
  ∃ l1 l2 w1' w2',
    health_check example_world = Ok (VRef l1) w1' ∧
    health_check (after_call example_world) = Ok (VRef l2) w2' ∧
    heap w1' !! l1 = heap w2' !! l2.
Proof.
  assert (Hd2 : deployed example_app (after_call example_world)).
  { exists "routes", false, empty_world, example_world.
    split; [vm_compute; reflexivity|].
    apply insert_subseteq. vm_compute. reflexivity. }
  split; [exact example_deployed|]. split; [exact Hd2|].
  split; [by split|]. split; [by split|].
  apply (request_data_not_consumed example_app example_world (after_call example_world)
           get_health get_health_noisy example_deployed Hd2).
  - split; reflexivity.
  - split; reflexivity.
Defined.

(** C7.  The handler cannot fail: in every store it returns normally, with a
    reference to a dict holding the literal payload, and it never raises. *)
Theorem health_check_never_raises w :
  (∃ l w', health_check w = Ok (VRef l) w' ∧ heap w' !! l = Some (ODict payload)) ∧
  ∀ e w', health_check w ≠ Raise e w'.
Proof.
  rewrite health_check_Ok. split.
  - exists (new_loc w), (after_call w). split; [done|]. apply lookup_insert_eq.
  - intros e w' H. discriminate H.
Qed.

(** C8.  Calling the handler has no side effect: the globals, the request
    context and every object that existed before the call are unchanged; the
    only difference is the new dict at a previously unused address.  The
    dict holds the payload, and turning it into the response reads it
    without changing the store. *)
Theorem health_check_no_side_effect w :
  ∃ l w',
    health_check w = Ok (VRef l) w' ∧
    heap w !! l = None ∧
    globals w' = globals w ∧
    current_request w' = current_request w ∧
    (∀ l' o, heap w !! l' = Some o → heap w' !! l' = Some o) ∧
    dom (heap w') = {[l]} ∪ dom (heap w) ∧
    heap w' !! l = Some (ODict payload) ∧
    ∀ app, make_response app (RvValue (VRef l)) w' = Ok (health_response (debug app)) w'.
Proof.
  exists (new_loc w), (after_call w).
  pose proof (new_loc_fresh w) as Hl.
  split; [apply health_check_Ok|]. split; [done|]. split; [done|]. split; [done|].
  unfold after_call. cbn [heap]. split; [|split; [|split]].
  - intros l' o Ho. rewrite lookup_insert_ne; [done|]. intros E. congruence.
  - apply dom_insert_L.
  - apply lookup_insert_eq.
  - intros app. apply make_response_payload. apply lookup_insert_eq.
Qed.

(** C9.  The route table of the [api_routes] blueprint has exactly one entry,
    the one for [/health] bound to [health_check]; mounted on an application
    it contributes exactly one rule, [/health]. *)
Theorem api_routes_single_entry name__ w0 :
  (∃ bp f b w1,
     routes_py name__ w0 = Ok tt w1 ∧
     globals w1 !! "api_routes" = Some (VRef bp) ∧
     heap w1 !! bp = Some (OBlueprint b) ∧
     bp_name b = "api" ∧
     bp_deferred_functions b = [Deferred "/health" None f None None] ∧
     heap w1 !! f = Some (OFunction "health_check" health_check_code)) ∧
  ∀ dbg, ∃ app w2,
    deploy name__ dbg w0 = Ok app w2 ∧
    r_rule <$> url_map app = ["/health"] ∧
    size (view_functions app) = 1%nat.
Proof.
  split.
  - destruct (routes_py_Ok name__ w0) as (bp & f & Hbp & Hf & Hne & Hrun).
    eexists bp, f, _, _. split; [exact Hrun|].
    cbn [heap globals]. split; [|split; [|split; [|split]]].
    + rewrite lookup_insert_ne by done. apply lookup_insert_eq.
    + apply lookup_insert_eq.
    + done.
    + done.
    + rewrite lookup_insert_ne by done. apply lookup_insert_eq.
  - intros dbg.
    destruct (deploy_Ok name__ dbg w0) as (bp & f & Hbp & Hf & Hne & Hrun).
    eexists _, _. split; [exact Hrun|]. split; [done|].
    apply map_size_singleton.
Qed.

(** C10.  The registered rule is the string [/health], without a trailing
    slash, so a request to [/health/] (a GET in particular) matches no rule:
    it is not dispatched to [health_check] and gets the framework's
    not-found response. *)
Theorem trailing_slash_not_found app w req :
  deployed app w → path req = "/health/" →
  r_rule <$> url_map app = ["/health"] ∧
  route_request app req = inl NotFound ∧
  ¬ invokes_health_check app w req ∧
  ∃ r, wsgi_app app req w = Ok r w ∧ status_code r = 404%Z.
Proof.
  intros Hd Hp. destruct (deployed_inv _ _ Hd) as (f & Happ & Hf).
  assert (Hne : path req ≠ "/health") by (rewrite Hp; discriminate).
  split; [by rewrite Happ|]. split; [|split].
  - rewrite Happ, route_request_health. by rewrite bool_decide_eq_false_2.
  - rewrite (invokes_spec _ _ _ Hd). by intros [E _].
  - exists (get_app_iter req not_found_response).
    split; [rewrite Happ at 1; by apply wsgi_app_not_found|].
    unfold get_app_iter. by case_bool_decide.
Qed.

Lemma trailing_slash_not_found_witness :
  deployed example_app example_world ∧ path get_health_slash = "/health/" ∧
  r_rule <$> url_map example_app = ["/health"] ∧
  route_request example_app get_health_slash = inl NotFound ∧
  ¬ invokes_health_check example_app example_world get_health_slash ∧
  ∃ r, wsgi_app example_app get_health_slash example_world = Ok r example_world ∧
       status_code r = 404%Z.
Proof.
  split; [exact example_deployed|]. split; [reflexivity|].
  apply (trailing_slash_not_found example_app example_world get_health_slash).
  - exact example_deployed.
  - reflexivity.
Defined.

(** * Further properties of the module *)

Lemma health_methods_cases (m : string) :
  m ∈ ({["GET"; "HEAD"; "OPTIONS"]} : gset string) →
  m = "GET" ∨ m = "HEAD" ∨ m = "OPTIONS".
Proof.
  intros Hm.
  apply elem_of_union in Hm as [Hm|Hm%elem_of_singleton]; [|auto].
  apply elem_of_union in Hm as [Hm%elem_of_singleton|Hm%elem_of_singleton]; auto.
Qed.

Lemma status_get_app_iter req r : status_code (get_app_iter req r) = status_code r.
Proof. unfold get_app_iter. by case_bool_decide. Qed.

(** The four ways a deployed application answers a request. *)
Lemma wsgi_app_deployed app w req :
  deployed app w →
  ∃ r w', wsgi_app app req w = Ok r w' ∧
    ((path req = "/health" ∧ (method req = "GET" ∨ method req = "HEAD") ∧
      r = get_app_iter req (health_response (debug app)) ∧ w' = after_call w) ∨
     (path req = "/health" ∧ method req = "OPTIONS" ∧
      r = options_response ∧ w' = w) ∨
     (path req = "/health" ∧
      (method req ∉ ({["GET"; "HEAD"; "OPTIONS"]} : gset string)) ∧
      r = method_not_allowed_response {["GET"; "HEAD"; "OPTIONS"]} ∧ w' = w) ∨
     (path req ≠ "/health" ∧ r = get_app_iter req not_found_response ∧ w' = w)).
Proof.
  intros Hd. destruct (deployed_inv _ _ Hd) as (f & Happ & Hf).
  remember (debug app) as dbg eqn:Hdbg. rewrite Happ. clear Hdbg Happ Hd.
  destruct (decide (path req = "/health")) as [Hp|Hp].
  - destruct (decide (method req ∈ ({["GET"; "HEAD"; "OPTIONS"]} : gset string)))
      as [Hm|Hm].
    + destruct (health_methods_cases _ Hm) as [E|[E|E]].
      * eexists _, _. split; [apply wsgi_app_view; auto|]. left. auto.
      * eexists _, _. split; [apply wsgi_app_view; auto|]. left. auto.
      * eexists _, _. split; [by apply wsgi_app_options|]. right. left. auto.
    + eexists _, _. split; [by apply wsgi_app_method_not_allowed|].
      right. right. left. auto.
  - eexists _, _. split; [by apply wsgi_app_not_found|].
    right. right. right. auto.
Qed.

Lemma call_health_check f w :
  heap w !! f = Some (OFunction "health_check" health_check_code) →
  call f w = Ok (VRef (new_loc w)) (after_call w).
Proof. intros Hf. unfold call. exec. apply health_check_Ok. Qed.

(** One request on a deployed application: it is answered, the deployment
    and the observable state are kept, and a GET for [/health] gets the
    health response. *)
Lemma wsgi_app_step app w req :
  deployed app w →
  ∃ r w', wsgi_app app req w = Ok r w' ∧
          deployed app w' ∧ same_observable_state w w' ∧
          (status_code r = 200%Z ∨ status_code r = 404%Z ∨ status_code r = 405%Z) ∧
          location r = None ∧
          (is_health "GET" req → r = health_response (debug app)).
Proof.
  intros Hd.
  destruct (wsgi_app_deployed app w req Hd) as (r & w' & Hrun & Hcases).
  exists r, w'. split; [done|].
  assert (Hget : is_health "GET" req → r = health_response (debug app)).
  { intros Hreq. rewrite (serve_get _ _ _ Hd Hreq) in Hrun. by injection Hrun. }
  destruct Hcases as [(Hp & Hm & -> & ->)|[(Hp & Hm & -> & ->)|[(Hp & Hm & -> & ->)|(Hp & -> & ->)]]].
  - split; [by apply deployed_after_call|].
    split; [apply same_observable_state_after_call|].
    rewrite status_get_app_iter. split; [by left|]. split; [|done].
    unfold get_app_iter. by case_bool_decide.
  - split; [done|]. split; [apply same_observable_state_refl|].
    split; [by left|]. done.
  - split; [done|]. split; [apply same_observable_state_refl|].
    split; [by right; right|]. done.
  - split; [done|]. split; [apply same_observable_state_refl|].
    rewrite status_get_app_iter. split; [by right; left|]. split; [|done].
    unfold get_app_iter. by case_bool_decide.
Qed.

(** X1.  Every call of the handler builds a new dict: whatever a caller
    writes into the dict it got, the next call returns another object, which
    holds the payload, and leaves the caller's dict as the caller made it. *)
Theorem health_check_returns_new_dict w items :
  ∃ l1 w1 w1' l2 w2,
    health_check w = Ok (VRef l1) w1 ∧
    store l1 (ODict items) w1 = Ok tt w1' ∧
    health_check w1' = Ok (VRef l2) w2 ∧
    l2 ≠ l1 ∧
    heap w2 !! l2 = Some (ODict payload) ∧
    heap w2 !! l1 = Some (ODict items).
Proof.
  set (w1 := after_call w).
  set (w1' := MkWorld (<[new_loc w := ODict items]> (heap w1)) (globals w1)
                (current_request w1)).
  assert (Hl1 : heap w1' !! new_loc w = Some (ODict items)) by apply lookup_insert_eq.
  assert (Hne : new_loc w1' ≠ new_loc w).
  { intros E. pose proof (new_loc_fresh w1') as Hf. rewrite E in Hf. congruence. }
  exists (new_loc w), w1, w1', (new_loc w1'), (after_call w1').
  split; [apply health_check_Ok|]. split; [apply run_store|].
  split; [apply health_check_Ok|]. split; [done|].
  unfold after_call at 1 2. cbn [heap]. split.
  - apply lookup_insert_eq.
  - by rewrite lookup_insert_ne.
Qed.


(** X3.  The decorator hands the function back unchanged: after deployment
    the module global [health_check] and the view function of the only
    endpoint, [api.health_check], are one and the same function object, and
    calling it directly returns a new payload dict. *)
Theorem view_function_is_module_global name__ dbg w0 app w1 :
  deploy name__ dbg w0 = Ok app w1 →
  ∃ f, globals w1 !! "health_check" = Some (VRef f) ∧
       view_functions app = {["api.health_check" := f]} ∧
       ∀ w, heap w1 ⊆ heap w →
            call f w = Ok (VRef (new_loc w)) (after_call w).
Proof.
  intros Hdep.
  destruct (deploy_Ok name__ dbg w0) as (bp & f & Hbp & Hf & Hne & Hrun).
  rewrite Hrun in Hdep. injection Hdep as <- <-.
  exists f. cbn [heap globals]. split; [apply lookup_insert_eq|]. split; [done|].
  intros w Hsub. apply call_health_check.
  eapply lookup_weaken; [|exact Hsub].
  rewrite lookup_insert_ne by done. apply lookup_insert_eq.
Qed.

Lemma view_function_is_module_global_witness :
  deploy "routes" false empty_world = Ok example_app example_world ∧
  ∃ f, globals example_world !! "health_check" = Some (VRef f) ∧
       view_functions example_app = {["api.health_check" := f]} ∧
       ∀ w, heap example_world ⊆ heap w →
            call f w = Ok (VRef (new_loc w)) (after_call w).
Proof.
  split; [vm_compute; reflexivity|].
  apply (view_function_is_module_global "routes" false empty_world
           example_app example_world).
  vm_compute. reflexivity.
Defined.

(** X4.  A deployed application answers every request, whatever its method
    and path, with status 200, 404 or 405: never a server error and never a
    redirect.  The observable state is as before. *)
Theorem every_request_answered_without_error app w req :
  deployed app w →
  ∃ r w', wsgi_app app req w = Ok r w' ∧
          (status_code r = 200%Z ∨ status_code r = 404%Z ∨ status_code r = 405%Z) ∧
          location r = None ∧
          same_observable_state w w'.
Proof.
  intros Hd.
  destruct (wsgi_app_step app w req Hd) as (r & w' & Hrun & _ & Hsame & Hst & Hloc & _).
  by exists r, w'.
Qed.

Lemma every_request_answered_without_error_witness :
  deployed example_app example_world ∧
  ∃ r w', wsgi_app example_app delete_health example_world = Ok r w' ∧
          (status_code r = 200%Z ∨ status_code r = 404%Z ∨ status_code r = 405%Z) ∧
          location r = None ∧
          same_observable_state example_world w'.
Proof.
  split; [exact example_deployed|].
  apply (every_request_answered_without_error example_app example_world delete_health).
  exact example_deployed.
Defined.

(** X5.  The answer to a GET for [/health] does not depend on what was
    requested before: in any sequence of requests, of any methods and paths,
    every request is answered, each GET for [/health] gets the same health
    response, and the observable state after the sequence is as before. *)
Theorem get_health_independent_of_history app reqs :
  ∀ w, deployed app w →
  ∃ rs w', serve_all app reqs w = Ok rs w' ∧
           length rs = length reqs ∧
           same_observable_state w w' ∧
           ∀ i req, reqs !! i = Some req → is_health "GET" req →
                    rs !! i = Some (health_response (debug app)).
Proof.
  induction reqs as [|req reqs IH]; intros w Hd.
  - exists [], w. split; [done|]. split; [done|].
    split; [apply same_observable_state_refl|]. intros i r Hi. by destruct i.
  - destruct (wsgi_app_step app w req Hd)
      as (r & w1 & Hrun & Hd1 & Hsame1 & _ & _ & Hget).
    destruct (IH w1 Hd1) as (rs & w' & Hrest & Hlen & Hsame & Hall).
    exists (r :: rs), w'. split; [|split; [|split]].
    + cbn [serve_all]. by rewrite run_bind, Hrun, run_bind, Hrest.
    + cbn [length]. by rewrite Hlen.
    + by eapply same_observable_state_trans.
    + intros [|i] req' Hi Hreq; cbn in Hi |- *.
      * injection Hi as <-. by rewrite Hget.
      * by eapply Hall.
Qed.

Lemma get_health_independent_of_history_witness :
  deployed example_app example_world ∧
  ∃ rs w',
    serve_all example_app [post_status; get_health; head_health; get_health_noisy]
      example_world = Ok rs w' ∧
    length rs = length [post_status; get_health; head_health; get_health_noisy] ∧
    same_observable_state example_world w' ∧
    ∀ i req,
      [post_status; get_health; head_health; get_health_noisy] !! i = Some req →
      is_health "GET" req →
      rs !! i = Some (health_response (debug example_app)).
Proof.
  split; [exact example_deployed|].
  apply (get_health_independent_of_history example_app
           [post_status; get_health; head_health; get_health_noisy]
           example_world example_deployed).
Defined.

(** X6.  A HEAD request to [/health] is answered like a GET, without the
    body: status 200, content type [application/json], empty body; the
    handler has run, leaving its dict in the store. *)
Theorem head_health_like_get_without_body app w req :
  deployed app w → is_health "HEAD" req →
  ∃ r, wsgi_app app req w = Ok r (after_call w) ∧
       status_code r = status_code (health_response (debug app)) ∧
       content_type r = content_type (health_response (debug app)) ∧
       allow r = allow (health_response (debug app)) ∧
       status_code r = 200%Z ∧
       content_type r = "application/json" ∧
       data r = "".
Proof.
  intros Hd [Hm Hp]. destruct (deployed_inv _ _ Hd) as (f & Happ & Hf).
  exists (get_app_iter req (health_response (debug app))).
  split; [rewrite Happ at 1; apply wsgi_app_view; auto|].
  unfold get_app_iter. rewrite Hm.
  by rewrite (bool_decide_eq_true_2 ("HEAD" = "HEAD")).
Qed.

Lemma head_health_like_get_without_body_witness :
  deployed example_app example_world ∧ is_health "HEAD" head_health ∧
  ∃ r, wsgi_app example_app head_health example_world = Ok r (after_call example_world) ∧
       status_code r = status_code (health_response (debug example_app)) ∧
       content_type r = content_type (health_response (debug example_app)) ∧
       allow r = allow (health_response (debug example_app)) ∧
       status_code r = 200%Z ∧
       content_type r = "application/json" ∧
       data r = "".
Proof.
  split; [exact example_deployed|]. split; [by split|].
  apply (head_health_like_get_without_body example_app example_world head_health).
  - exact example_deployed.
  - split; reflexivity.
Defined.

(** X7.  An OPTIONS request to [/health] is answered by the framework: 200,
    an empty body and the allowed methods GET, HEAD and OPTIONS; the handler
    is not invoked and the store is untouched. *)
Theorem options_health_answered_by_framework app w req :
  deployed app w → is_health "OPTIONS" req →
  route_request app req = inr DefaultOptions ∧
  ¬ invokes_health_check app w req ∧
  ∃ r, wsgi_app app req w = Ok r w ∧
       status_code r = 200%Z ∧
       allow r = {["GET"; "HEAD"; "OPTIONS"]} ∧
       data r = "".
Proof.
  intros Hd [Hm Hp]. destruct (deployed_inv _ _ Hd) as (f & Happ & Hf).
  split; [|split].
  - rewrite Happ, route_request_health, Hp, Hm.
    rewrite (bool_decide_eq_true_2 ("/health" = "/health")) by done.
    rewrite (bool_decide_eq_true_2 ("OPTIONS" ∈ _)) by set_solver.
    by rewrite (bool_decide_eq_true_2 ("OPTIONS" = "OPTIONS")).
  - rewrite (invokes_spec _ _ _ Hd), Hm. by intros [_ [E|E]].
  - exists options_response. split; [|done].
    rewrite Happ at 1. by apply wsgi_app_options.
Qed.

Lemma options_health_answered_by_framework_witness :
  deployed example_app example_world ∧ is_health "OPTIONS" options_health ∧
  route_request example_app options_health = inr DefaultOptions ∧
  ¬ invokes_health_check example_app example_world options_health ∧
  ∃ r, wsgi_app example_app options_health example_world = Ok r example_world ∧
       status_code r = 200%Z ∧
       allow r = {["GET"; "HEAD"; "OPTIONS"]} ∧
       data r = "".
Proof.
  split; [exact example_deployed|]. split; [by split|].
  apply (options_health_answered_by_framework example_app example_world options_health).
  - exact example_deployed.
  - split; reflexivity.
Defined.

(** X8.  A request to [/health] with any method other than GET, HEAD and
    OPTIONS is refused with 405, and the refusal names exactly GET, HEAD and
    OPTIONS as the allowed methods. *)
Theorem method_not_allowed_names_allowed_methods app w req :
  deployed app w → path req = "/health" →
  method req ≠ "GET" → method req ≠ "HEAD" → method req ≠ "OPTIONS" →
  ∃ r, wsgi_app app req w = Ok r w ∧
       status_code r = 405%Z ∧
       allow r = {["GET"; "HEAD"; "OPTIONS"]} ∧
       content_type r = "text/html; charset=utf-8".
Proof.
  intros Hd Hp Hg Hh Ho. destruct (deployed_inv _ _ Hd) as (f & Happ & Hf).
  exists (method_not_allowed_response {["GET"; "HEAD"; "OPTIONS"]}).
  split; [|done].
  rewrite Happ at 1. apply wsgi_app_method_not_allowed; [done|].
  intros Hm. by destruct (health_methods_cases _ Hm) as [E|[E|E]].
Qed.

Lemma method_not_allowed_names_allowed_methods_witness :
  deployed example_app example_world ∧ path delete_health = "/health" ∧
  method delete_health ≠ "GET" ∧ method delete_health ≠ "HEAD" ∧
  method delete_health ≠ "OPTIONS" ∧
  ∃ r, wsgi_app example_app delete_health example_world = Ok r example_world ∧
       status_code r = 405%Z ∧
       allow r = {["GET"; "HEAD"; "OPTIONS"]} ∧
       content_type r = "text/html; charset=utf-8".
Proof.
  split; [exact example_deployed|]. split; [reflexivity|].
  split; [discriminate|]. split; [discriminate|]. split; [discriminate|].
  apply (method_not_allowed_names_allowed_methods example_app example_world delete_health).
  - exact example_deployed.
  - reflexivity.
  - discriminate.
  - discriminate.
  - discriminate.
Defined.
